(** * Power-management handlers of the sun50iw1p1 platform port

    A shallow embedding of [plat/sun50iw1p1/plat_pm.c]: the affinity-level
    action gate, the standby / off / suspend handlers with their finishers,
    and the system reset handler.

    The handlers are straight-line C code whose observable behaviour is the
    sequence of calls they make into the PSCI framework, the GIC and console
    drivers and the SoC actuators, the content of SCR_EL3, and the way they
    hand control back (or not).  Each handler is therefore a computation in a
    small monad that threads the machine state, accumulates the trace of
    calls leaving the file, and records how the computation ended. *)

From Stdlib Require Import ZArith List String Bool Lia.
Import ListNotations.
Local Open Scope Z_scope.

(** ** C integer conversions *)

(** Conversion to [uint32_t] / [unsigned int]. *)
Definition u32 (z : Z) : Z := z mod 2 ^ 32.

(** Conversion to [uint64_t]. *)
Definition u64 (z : Z) : Z := z mod 2 ^ 64.

(** Conversion to [int] (two's complement, as gcc does it). *)
Definition to_int (z : Z) : Z := (z + 2 ^ 31) mod 2 ^ 32 - 2 ^ 31.

(** ** Constants coming from headers

    [plat_pm.c] takes these from [arch.h], [psci.h], [errno.h] and
    [platform_def.h] / [sunxi_def.h].  The handlers are embedded over an
    arbitrary choice of them; [upstream_def] below gives the values of the
    upstream headers. *)
Record platform_def : Type := {
  MPIDR_MAX_AFFLVL : Z;
  MPIDR_AFFLVL0 : Z;
  MPIDR_AFF0_SHIFT : Z;
  MPIDR_AFF1_SHIFT : Z;
  MPIDR_AFFLVL_MASK : Z;
  PSCI_STATE_OFF : Z;
  PSCI_INVALID_DATA : Z;
  PSCI_E_SUCCESS : Z;
  PSCI_E_INVALID_PARAMS : Z;
  (* errno values are positive [int] constants (C11 7.5p2) *)
  EAGAIN : positive;
  SCR_IRQ_BIT : Z;
  GICC_BASE : Z;
  GICD_BASE : Z;
  SUNXI_UART0_BASE : Z;
  UART0_CLK_IN_HZ : Z;
  UART0_BAUDRATE : Z
}.

(** ** Machine state, events and outcomes *)

(** The only piece of machine state the handlers read back is SCR_EL3. *)
Record machine : Type := { scr_el3 : Z }.

(** One constructor per function called from [plat_pm.c] but defined
    elsewhere, carrying the actual arguments of the call. *)
Inductive event : Type :=
| psci_get_max_phys_off_afflvl_ev
| psci_get_suspend_afflvl_ev
| psci_get_pstate_afflvl_ev (power_state : Z)
| sun50i_set_secondary_entry_ev (entry cpu : Z)
| sun50i_cpu_power_up_ev (cluster cpu : Z)
| sun50i_cpu_power_down_ev (cluster cpu : Z)
| sunxi_power_set_cpu_voltage_ev (level : Z)
| platform_smp_init_ev
| arm_gic_cpuif_setup_ev
| arm_gic_pcpu_distif_setup_ev
| arm_gic_cpuif_deactivate_ev
| arm_gic_init_ev (gicc_base gicd_base gicr_base irq_sec_ptr num_irqs : Z)
| arm_gic_setup_ev
| console_init_ev (base_addr uart_clk baud_rate : Z)
| console_exit_ev
| read_scr_el3_ev
| write_scr_el3_ev (v : Z)
| isb_ev
| dsb_ev
| wfi_ev
| mmio_write_32_ev (addr value : Z)
| ERROR_ev (msg : string) (args : list Z)
| panic_ev.

(** Queries to the PSCI framework only read its bookkeeping; every other
    event acts on the hardware or on a driver. *)
Definition is_framework_query (e : event) : bool :=
  match e with
  | psci_get_max_phys_off_afflvl_ev
  | psci_get_suspend_afflvl_ev
  | psci_get_pstate_afflvl_ev _ => true
  | _ => false
  end.

Definition is_hw_action (e : event) : bool := negb (is_framework_query e).

(** How a call ends. *)
Inductive outcome (A : Type) : Type :=
| Returned (a : A)   (* control is back in the caller, with a value *)
| AssertFailed       (* an [assert] did not hold *)
| Waiting            (* the core sits in [wfi] and is never woken *)
| Panicked.          (* [panic()]: the core is halted for good *)
Arguments Returned {A} a.
Arguments AssertFailed {A}.
Arguments Waiting {A}.
Arguments Panicked {A}.

Record result (A : Type) : Type := mkResult {
  res : outcome A;
  hw_after : machine;
  trace : list event
}.
Arguments mkResult {A} _ _ _.
Arguments res {A} _.
Arguments hw_after {A} _.
Arguments trace {A} _.

Definition M (A : Type) : Type := machine -> result A.

Definition ret {A : Type} (a : A) : M A :=
  fun m => mkResult (Returned a) m [].

Definition bind {A B : Type} (c : M A) (k : A -> M B) : M B :=
  fun m =>
    let r := c m in
    match res r with
    | Returned a =>
        let r' := k a (hw_after r) in
        mkResult (res r') (hw_after r') (trace r ++ trace r')
    | AssertFailed => mkResult AssertFailed (hw_after r) (trace r)
    | Waiting => mkResult Waiting (hw_after r) (trace r)
    | Panicked => mkResult Panicked (hw_after r) (trace r)
    end.

Declare Scope pm_scope.
Delimit Scope pm_scope with pm.
Notation "x <- c ;; k" := (bind c (fun x => k))
  (at level 100, c at next level, right associativity) : pm_scope.
Notation "c ;; k" := (bind c (fun _ => k))
  (at level 100, right associativity) : pm_scope.
Local Open Scope pm_scope.

(** A call that leaves the file and comes back. *)
Definition call (e : event) : M unit :=
  fun m => mkResult (Returned tt) m [e].

(** [assert(e)] of [assert.h]. *)
Definition assert (e : bool) : M unit :=
  fun m => mkResult (if e then Returned tt else AssertFailed) m [].

(** ** What surrounds the file *)

(** The answers of the PSCI framework for the transition in flight and the
    behaviour of the core while it waits in [wfi]. *)
Record environment : Type := {
  (* value psci_get_max_phys_off_afflvl() reports *)
  max_phys_off_afflvl_report : Z;
  (* value psci_get_suspend_afflvl() reports *)
  suspend_afflvl_report : Z;
  (* psci_get_pstate_afflvl(): the level encoded in a power state *)
  pstate_afflvl : Z -> Z;
  (* wfi: [None] when no wake-up event ever arrives, otherwise the machine
     state the core resumes with *)
  wfi_wake : machine -> option machine;
  (* status sunxi_power_set_cpu_voltage() hands back *)
  cpu_voltage_status : Z
}.

Section PlatPm.

Variable D : platform_def.
Variable E : environment.

(** *** Collaborators *)

Definition psci_get_max_phys_off_afflvl : M Z :=
  call psci_get_max_phys_off_afflvl_ev ;; ret (max_phys_off_afflvl_report E).

Definition psci_get_suspend_afflvl : M Z :=
  call psci_get_suspend_afflvl_ev ;; ret (suspend_afflvl_report E).

Definition psci_get_pstate_afflvl (power_state : Z) : M Z :=
  call (psci_get_pstate_afflvl_ev power_state) ;;
  ret (pstate_afflvl E power_state).

(** Modelled from the spec: the accessors of the secure exception
    configuration register live in [arch_helpers.h]; reading "the current
    secure exception configuration register" yields its content and writing
    replaces it. *)
Definition read_scr_el3 : M Z :=
  fun m => mkResult (Returned (scr_el3 m)) m [read_scr_el3_ev].

Definition write_scr_el3 (v : Z) : M unit :=
  fun _ => mkResult (Returned tt) {| scr_el3 := v |} [write_scr_el3_ev v].

(** Modelled from the spec: at [wfi] "the core halts until an interrupt or
    event arrives"; whether one arrives, and the machine state the core then
    resumes with, is the environment's [wfi_wake]. *)
Definition wfi : M unit :=
  fun m =>
    match wfi_wake E m with
    | Some m' => mkResult (Returned tt) m' [wfi_ev]
    | None => mkResult Waiting m [wfi_ev]
    end.

(** Modelled from the spec: [panic()] is defined outside this file; it is
    the permanent halt of "this is treated as an unrecoverable condition and
    the core halts permanently". *)
Definition panic {A : Type} : M A :=
  fun m => mkResult Panicked m [panic_ev].

Definition sunxi_power_set_cpu_voltage (level : Z) : M Z :=
  call (sunxi_power_set_cpu_voltage_ev level) ;; ret (cpu_voltage_status E).

(** *** The action gate *)

Definition sunxi_do_plat_actions (afflvl state : Z) : M Z :=
  assert (afflvl <=? u32 (MPIDR_MAX_AFFLVL D)) ;;
  if negb (state =? u32 (PSCI_STATE_OFF D)) then
    ret (- Z.pos (EAGAIN D))
  else
    r <- psci_get_max_phys_off_afflvl ;;
    let max_phys_off_afflvl := u32 r in
    assert (negb (max_phys_off_afflvl =? u32 (PSCI_INVALID_DATA D))) ;;
    s <- psci_get_suspend_afflvl ;;
    assert (u32 s >=? max_phys_off_afflvl) ;;
    if negb (afflvl =? max_phys_off_afflvl) then
      ret (- Z.pos (EAGAIN D))
    else
      ret 0.

(** *** Affinity domain identity *)

(** [int cpu_nr = (mpidr >> MPIDR_AFF0_SHIFT) & MPIDR_AFFLVL_MASK;] *)
Definition cpu_nr (mpidr : Z) : Z :=
  to_int (Z.land (Z.shiftr mpidr (MPIDR_AFF0_SHIFT D))
                 (u64 (MPIDR_AFFLVL_MASK D))).

(** [int cluster_nr = (mpidr >> MPIDR_AFF1_SHIFT) & MPIDR_AFFLVL_MASK;] *)
Definition cluster_nr (mpidr : Z) : Z :=
  to_int (Z.land (Z.shiftr mpidr (MPIDR_AFF1_SHIFT D))
                 (u64 (MPIDR_AFFLVL_MASK D))).

(** *** Power-up and its finisher *)

Definition sunxi_affinst_on
    (mpidr sec_entrypoint ns_entrypoint afflvl state : Z) : M Z :=
  let cpu_nr := cpu_nr mpidr in
  let cluster_nr := cluster_nr mpidr in
  if negb (afflvl =? u32 (MPIDR_AFFLVL0 D)) then
    ret (PSCI_E_SUCCESS D)
  else
    call (sun50i_set_secondary_entry_ev sec_entrypoint cpu_nr) ;;
    call (sun50i_cpu_power_up_ev cluster_nr cpu_nr) ;;
    ret (PSCI_E_SUCCESS D).

Definition sunxi_affinst_on_finish (mpidr afflvl state : Z) : M Z :=
  g <- sunxi_do_plat_actions afflvl state ;;
  if g =? - Z.pos (EAGAIN D) then
    ret (PSCI_E_SUCCESS D)
  else
    call platform_smp_init_ev ;;
    call arm_gic_cpuif_setup_ev ;;
    call arm_gic_pcpu_distif_setup_ev ;;
    ret (PSCI_E_SUCCESS D).

(** *** Standby *)

Definition sunxi_affinst_standby (power_state : Z) : M Z :=
  r <- psci_get_pstate_afflvl power_state ;;
  let target_afflvl := u32 r in
  if negb (target_afflvl =? u32 (MPIDR_AFFLVL0 D)) then
    ret (PSCI_E_INVALID_PARAMS D)
  else
    scr <- read_scr_el3 ;;
    write_scr_el3 (Z.lor scr (u64 (SCR_IRQ_BIT D))) ;;
    call isb_ev ;;
    call dsb_ev ;;
    wfi ;;
    write_scr_el3 scr ;;
    ret (PSCI_E_SUCCESS D).

(** *** Power-down, off and suspend *)

Definition sunxi_power_down_common (afflvl mpidr sec_entrypoint : Z) : M Z :=
  let cpu_nr := cpu_nr mpidr in
  let cluster_nr := cluster_nr mpidr in
  call arm_gic_cpuif_deactivate_ev ;;
  call (sun50i_cpu_power_down_ev cluster_nr cpu_nr) ;;
  ret (PSCI_E_SUCCESS D).

Definition sunxi_affinst_off (mpidr afflvl state : Z) : M Z :=
  g <- sunxi_do_plat_actions afflvl state ;;
  if g =? - Z.pos (EAGAIN D) then
    ret (PSCI_E_SUCCESS D)
  else
    sunxi_power_down_common afflvl mpidr 0.

Definition sunxi_affinst_suspend
    (mpidr sec_entrypoint ns_entrypoint afflvl state : Z) : M Z :=
  g <- sunxi_do_plat_actions afflvl state ;;
  if g =? - Z.pos (EAGAIN D) then
    ret (PSCI_E_SUCCESS D)
  else
    s <- psci_get_suspend_afflvl ;;
    (if afflvl =? u32 s then call console_exit_ev else ret tt) ;;
    sunxi_power_down_common afflvl mpidr sec_entrypoint.

Definition sunxi_affinst_suspend_finish (mpidr afflvl state : Z) : M Z :=
  s <- psci_get_suspend_afflvl ;;
  (if (afflvl =? u32 s) && (Z.land mpidr 0xff =? 0x0) then
     call (arm_gic_init_ev (GICC_BASE D) (GICD_BASE D) 0 0 0) ;;
     call arm_gic_setup_ev ;;
     call (console_init_ev (SUNXI_UART0_BASE D) (UART0_CLK_IN_HZ D)
                         (UART0_BAUDRATE D))
   else ret tt) ;;
  sunxi_affinst_on_finish mpidr afflvl state.

(** *** Terminal handlers *)

Definition sunxi_system_off : M unit :=
  r <- sunxi_power_set_cpu_voltage (-1) ;;
  call (ERROR_ev "PSCI system shutdown: %d: still alive ...\n" [r]) ;;
  wfi ;;
  panic.

Definition sunxi_system_reset : M unit :=
  call (mmio_write_32_ev 0x01c20cb4 1) ;;
  call (mmio_write_32_ev 0x01c20cb8 1) ;;
  call (mmio_write_32_ev 0x01c20cb0 (Z.lor (Z.shiftl 0xa57 1) 0x01)) ;;
  wfi ;;
  call (ERROR_ev "Sunxi System Reset: operation not handled.\n" []) ;;
  panic.

(** *** The paths through the gate

    One constructor per way control can leave [sunxi_do_plat_actions], with
    the conditions under which it is taken and what the call then produces.
    [gate_paths] below shows the function always follows one of them. *)
Inductive gate_path (afflvl state : Z) (m : machine) : result Z -> Prop :=
| gp_level :
    u32 (MPIDR_MAX_AFFLVL D) < afflvl ->
    gate_path afflvl state m (mkResult AssertFailed m [])
| gp_not_off :
    afflvl <= u32 (MPIDR_MAX_AFFLVL D) ->
    state <> u32 (PSCI_STATE_OFF D) ->
    gate_path afflvl state m (mkResult (Returned (- Z.pos (EAGAIN D))) m [])
| gp_invalid :
    afflvl <= u32 (MPIDR_MAX_AFFLVL D) ->
    state = u32 (PSCI_STATE_OFF D) ->
    u32 (max_phys_off_afflvl_report E) = u32 (PSCI_INVALID_DATA D) ->
    gate_path afflvl state m
      (mkResult AssertFailed m [psci_get_max_phys_off_afflvl_ev])
| gp_below :
    afflvl <= u32 (MPIDR_MAX_AFFLVL D) ->
    state = u32 (PSCI_STATE_OFF D) ->
    u32 (max_phys_off_afflvl_report E) <> u32 (PSCI_INVALID_DATA D) ->
    u32 (suspend_afflvl_report E) < u32 (max_phys_off_afflvl_report E) ->
    gate_path afflvl state m
      (mkResult AssertFailed m
         [psci_get_max_phys_off_afflvl_ev; psci_get_suspend_afflvl_ev])
| gp_other_level :
    afflvl <= u32 (MPIDR_MAX_AFFLVL D) ->
    state = u32 (PSCI_STATE_OFF D) ->
    u32 (max_phys_off_afflvl_report E) <> u32 (PSCI_INVALID_DATA D) ->
    u32 (max_phys_off_afflvl_report E) <= u32 (suspend_afflvl_report E) ->
    afflvl <> u32 (max_phys_off_afflvl_report E) ->
    gate_path afflvl state m
      (mkResult (Returned (- Z.pos (EAGAIN D))) m
         [psci_get_max_phys_off_afflvl_ev; psci_get_suspend_afflvl_ev])
| gp_boundary :
    afflvl <= u32 (MPIDR_MAX_AFFLVL D) ->
    state = u32 (PSCI_STATE_OFF D) ->
    u32 (max_phys_off_afflvl_report E) <> u32 (PSCI_INVALID_DATA D) ->
    u32 (max_phys_off_afflvl_report E) <= u32 (suspend_afflvl_report E) ->
    afflvl = u32 (max_phys_off_afflvl_report E) ->
    gate_path afflvl state m
      (mkResult (Returned 0) m
         [psci_get_max_phys_off_afflvl_ev; psci_get_suspend_afflvl_ev]).

End PlatPm.

(** ** A concrete platform

    The values the generic headers give ([arch.h], [psci.h], [errno.h]),
    device addresses and UART settings after the A64 memory map, and the
    framework's decoding of the level field of a power state.  They serve to
    run the handlers on concrete inputs; the theorems hold for any
    [platform_def]. *)
Definition upstream_def : platform_def := {|
  MPIDR_MAX_AFFLVL := 2;
  MPIDR_AFFLVL0 := 0;
  MPIDR_AFF0_SHIFT := 0;
  MPIDR_AFF1_SHIFT := 8;
  MPIDR_AFFLVL_MASK := 0xff;
  PSCI_STATE_OFF := 1;
  PSCI_INVALID_DATA := -1;
  PSCI_E_SUCCESS := 0;
  PSCI_E_INVALID_PARAMS := -2;
  EAGAIN := 11;
  SCR_IRQ_BIT := Z.shiftl 1 1;
  GICC_BASE := 0x01c82000;
  GICD_BASE := 0x01c81000;
  SUNXI_UART0_BASE := 0x01c28000;
  UART0_CLK_IN_HZ := 24000000;
  UART0_BAUDRATE := 115200
|}.

Definition upstream_pstate_afflvl (power_state : Z) : Z :=
  Z.land (Z.shiftr power_state 24) 0x3.

(** An environment in which the framework reports the given levels and the
    core is woken out of [wfi] as [wake] says. *)
Definition env_of (max_off suspend : Z)
    (wake : machine -> option machine) : environment := {|
  max_phys_off_afflvl_report := max_off;
  suspend_afflvl_report := suspend;
  pstate_afflvl := upstream_pstate_afflvl;
  wfi_wake := wake;
  cpu_voltage_status := 0
|}.

(** Wake-up by an interrupt that leaves SCR_EL3 alone, one whose handling
    rewrites it, and no wake-up at all. *)
Definition wake_plain : machine -> option machine := fun m => Some m.
Definition wake_clobber : machine -> option machine :=
  fun _ => Some {| scr_el3 := 0 |}.
Definition wake_never : machine -> option machine := fun _ => None.

(** A machine to run the handlers on. *)
Definition m0 : machine := {| scr_el3 := 0x30 |}.

(** Events of a trace that act on hardware or drivers. *)
Definition hw_actions (t : list event) : list event := filter is_hw_action t.

(** The [mmio_write_32] calls of a trace, as (address, value) pairs. *)
Fixpoint mmio_writes (t : list event) : list (Z * Z) :=
  match t with
  | [] => []
  | mmio_write_32_ev a v :: t' => (a, v) :: mmio_writes t'
  | _ :: t' => mmio_writes t'
  end.

(** * Properties *)

Section Properties.

Variable D : platform_def.
Variable E : environment.

Local Notation "'gate'" := (sunxi_do_plat_actions D E).
Local Notation "'max_off'" := (u32 (max_phys_off_afflvl_report E)).
Local Notation "'suspend_lvl'" := (u32 (suspend_afflvl_report E)).
Local Notation "'DEFER'" := (- Z.pos (EAGAIN D)).

(** ** The action gate, path by path *)

Ltac run_gate :=
  unfold sunxi_do_plat_actions, psci_get_max_phys_off_afflvl,
    psci_get_suspend_afflvl, bind, ret, call, assert;
  cbn [res hw_after trace app].

Lemma gate_level_out_of_range afflvl state m :
  u32 (MPIDR_MAX_AFFLVL D) < afflvl ->
  gate afflvl state m = mkResult AssertFailed m [].
Proof.
  intros Hlvl. run_gate.
  destruct (Z.leb_spec afflvl (u32 (MPIDR_MAX_AFFLVL D))) as [Hle|_]; [lia|].
  reflexivity.
Qed.

Lemma gate_not_off afflvl state m :
  afflvl <= u32 (MPIDR_MAX_AFFLVL D) ->
  state <> u32 (PSCI_STATE_OFF D) ->
  gate afflvl state m = mkResult (Returned DEFER) m [].
Proof.
  intros Hlvl Hst. run_gate.
  apply Z.leb_le in Hlvl. rewrite Hlvl. cbn [res hw_after trace app].
  apply Z.eqb_neq in Hst. rewrite Hst. reflexivity.
Qed.

Lemma gate_off_invalid_report afflvl m :
  afflvl <= u32 (MPIDR_MAX_AFFLVL D) ->
  max_off = u32 (PSCI_INVALID_DATA D) ->
  gate afflvl (u32 (PSCI_STATE_OFF D)) m
  = mkResult AssertFailed m [psci_get_max_phys_off_afflvl_ev].
Proof.
  intros Hlvl Hinv. run_gate.
  apply Z.leb_le in Hlvl. rewrite Hlvl. cbn [res hw_after trace app].
  rewrite Z.eqb_refl. cbn [negb res hw_after trace app].
  rewrite Hinv, Z.eqb_refl. reflexivity.
Qed.

Lemma gate_off_suspend_below afflvl m :
  afflvl <= u32 (MPIDR_MAX_AFFLVL D) ->
  max_off <> u32 (PSCI_INVALID_DATA D) ->
  suspend_lvl < max_off ->
  gate afflvl (u32 (PSCI_STATE_OFF D)) m
  = mkResult AssertFailed m
      [psci_get_max_phys_off_afflvl_ev; psci_get_suspend_afflvl_ev].
Proof.
  intros Hlvl Hval Hlt. run_gate.
  apply Z.leb_le in Hlvl. rewrite Hlvl. cbn [res hw_after trace app].
  rewrite Z.eqb_refl. cbn [negb res hw_after trace app].
  apply Z.eqb_neq in Hval. rewrite Hval. cbn [negb res hw_after trace app].
  rewrite Z.geb_leb.
  destruct (Z.leb_spec max_off suspend_lvl) as [Hge|_]; [lia|].
  reflexivity.
Qed.

Lemma gate_off_valid afflvl m :
  afflvl <= u32 (MPIDR_MAX_AFFLVL D) ->
  max_off <> u32 (PSCI_INVALID_DATA D) ->
  max_off <= suspend_lvl ->
  gate afflvl (u32 (PSCI_STATE_OFF D)) m
  = mkResult (Returned (if afflvl =? max_off then 0 else DEFER)) m
      [psci_get_max_phys_off_afflvl_ev; psci_get_suspend_afflvl_ev].
Proof.
  intros Hlvl Hval Hge. run_gate.
  apply Z.leb_le in Hlvl. rewrite Hlvl. cbn [res hw_after trace app].
  rewrite Z.eqb_refl. cbn [negb res hw_after trace app].
  apply Z.eqb_neq in Hval. rewrite Hval. cbn [negb res hw_after trace app].
  rewrite Z.geb_leb. apply Z.leb_le in Hge. rewrite Hge.
  cbn [res hw_after trace app].
  destruct (afflvl =? max_off); reflexivity.
Qed.

Lemma gate_paths afflvl state m : gate_path D E afflvl state m (gate afflvl state m).
Proof.
  destruct (Z.lt_ge_cases (u32 (MPIDR_MAX_AFFLVL D)) afflvl) as [Hgt|Hle].
  { rewrite gate_level_out_of_range by assumption. now constructor. }
  destruct (Z.eq_dec state (u32 (PSCI_STATE_OFF D))) as [->|Hst].
  2:{ rewrite gate_not_off by assumption. now constructor. }
  destruct (Z.eq_dec max_off (u32 (PSCI_INVALID_DATA D))) as [Hinv|Hval].
  { rewrite gate_off_invalid_report by assumption. now constructor. }
  destruct (Z.lt_ge_cases suspend_lvl max_off) as [Hlt|Hge].
  { rewrite gate_off_suspend_below by assumption. now constructor. }
  rewrite gate_off_valid by assumption.
  destruct (Z.eqb_spec afflvl max_off) as [Heq|Hne].
  - now apply gp_boundary.
  - now apply gp_other_level.
Qed.

(** The gate leaves the machine alone and only talks to the framework. *)
Lemma gate_frame afflvl state m :
  hw_after (gate afflvl state m) = m /\
  hw_actions (trace (gate afflvl state m)) = [].
Proof. destruct (gate_paths afflvl state m); split; reflexivity. Qed.

(** It hands back 0 or -EAGAIN, nothing else. *)
Lemma gate_returns afflvl state m v :
  res (gate afflvl state m) = Returned v -> v = 0 \/ v = DEFER.
Proof.
  destruct (gate_paths afflvl state m); cbn [res]; intros Hv;
    inversion Hv; auto.
Qed.

(** C1: when the requested state is OFF and the gate's preconditions hold
    (level within the hierarchy, a valid maximum-physical-off report, and a
    suspend level not below it), the gate returns 0 exactly when the
    requested level is the reported maximum-physical-off level, and returns
    -EAGAIN at every other level. *)
Theorem gate_act_now_iff_max_phys_off (afflvl state : Z) (m : machine) :
  state = u32 (PSCI_STATE_OFF D) ->
  afflvl <= u32 (MPIDR_MAX_AFFLVL D) ->
  max_off <> u32 (PSCI_INVALID_DATA D) ->
  max_off <= suspend_lvl ->
  (res (gate afflvl state m) = Returned 0 <-> afflvl = max_off) /\
  (afflvl <> max_off -> res (gate afflvl state m) = Returned DEFER).
Proof.
  intros -> Hlvl Hval Hge.
  rewrite gate_off_valid by assumption. cbn [res].
  destruct (Z.eqb_spec afflvl max_off) as [Heq|Hne]; split.
  - tauto.
  - intros Hne. contradiction.
  - split; [intros Hr; inversion Hr; lia | intros Heq; contradiction].
  - reflexivity.
Qed.

(** C2, as the code has it: for a level within the hierarchy and a state
    other than OFF the gate returns -EAGAIN, and it does so before asking
    the framework anything (its trace is empty, the machine untouched). *)
Theorem gate_defers_when_not_off (afflvl state : Z) (m : machine) :
  afflvl <= u32 (MPIDR_MAX_AFFLVL D) ->
  state <> u32 (PSCI_STATE_OFF D) ->
  res (gate afflvl state m) = Returned DEFER /\
  trace (gate afflvl state m) = [] /\
  ~ In psci_get_max_phys_off_afflvl_ev (trace (gate afflvl state m)) /\
  ~ In psci_get_suspend_afflvl_ev (trace (gate afflvl state m)) /\
  hw_after (gate afflvl state m) = m.
Proof.
  intros Hlvl Hst. rewrite gate_not_off by assumption.
  cbn [res trace hw_after In]. tauto.
Qed.

(** C8: the gate's assertions fire exactly on a violated precondition.
    With state OFF, an invalid maximum-physical-off report or a suspend
    level below that report makes an assertion fire; with a level within
    the hierarchy and valid reports none fires; and in general an assertion
    fires if and only if the level is out of range, or the state is OFF and
    one of the two reports is bad. *)
Theorem gate_assertions_fire_exactly (afflvl state : Z) (m : machine) :
  (state = u32 (PSCI_STATE_OFF D) ->
   max_off = u32 (PSCI_INVALID_DATA D) \/ suspend_lvl < max_off ->
   res (gate afflvl state m) = AssertFailed) /\
  (afflvl <= u32 (MPIDR_MAX_AFFLVL D) ->
   max_off <> u32 (PSCI_INVALID_DATA D) ->
   max_off <= suspend_lvl ->
   res (gate afflvl state m) <> AssertFailed) /\
  (res (gate afflvl state m) = AssertFailed <->
   u32 (MPIDR_MAX_AFFLVL D) < afflvl \/
   (state = u32 (PSCI_STATE_OFF D) /\
    (max_off = u32 (PSCI_INVALID_DATA D) \/ suspend_lvl < max_off))).
Proof.
  destruct (gate_paths afflvl state m); cbn [res];
    repeat split; intros;
    try reflexivity; try discriminate; try tauto; try lia;
    try (intuition (try lia; try congruence; try discriminate); fail).
Qed.

(** ** Off and suspend *)

Lemma hw_actions_nil_not_In (t : list event) (e : event) :
  hw_actions t = [] -> is_hw_action e = true -> ~ In e t.
Proof.
  unfold hw_actions. intros Hnil He Hin.
  assert (Hf : In e (filter is_hw_action t)) by (apply filter_In; auto).
  rewrite Hnil in Hf. exact Hf.
Qed.

Lemma off_on_defer mpidr afflvl state m :
  res (gate afflvl state m) = Returned DEFER ->
  sunxi_affinst_off D E mpidr afflvl state m
  = mkResult (Returned (PSCI_E_SUCCESS D)) m (trace (gate afflvl state m)).
Proof.
  unfold sunxi_affinst_off, bind.
  destruct (gate_paths afflvl state m); cbn [res hw_after trace];
    intros Hr; try discriminate Hr;
    try (exfalso; inversion Hr; lia);
    rewrite Z.eqb_refl; unfold ret; cbn [res hw_after trace];
    rewrite app_nil_r; reflexivity.
Qed.

Lemma suspend_on_defer mpidr sec_entrypoint ns_entrypoint afflvl state m :
  res (gate afflvl state m) = Returned DEFER ->
  sunxi_affinst_suspend D E mpidr sec_entrypoint ns_entrypoint afflvl state m
  = mkResult (Returned (PSCI_E_SUCCESS D)) m (trace (gate afflvl state m)).
Proof.
  unfold sunxi_affinst_suspend, bind.
  destruct (gate_paths afflvl state m); cbn [res hw_after trace];
    intros Hr; try discriminate Hr;
    try (exfalso; inversion Hr; lia);
    rewrite Z.eqb_refl; unfold ret; cbn [res hw_after trace];
    rewrite app_nil_r; reflexivity.
Qed.

(** C3: when the gate answers -EAGAIN, the off handler and the suspend
    handler return PSCI_E_SUCCESS having done nothing but the gate's own
    framework queries: the machine is unchanged and the trace holds no
    hardware or driver action, in particular no GIC CPU-interface
    deactivation, no core power-down and no console shutdown. *)
Theorem off_and_suspend_do_nothing_on_defer
    (mpidr sec_entrypoint ns_entrypoint afflvl state : Z) (m : machine) :
  res (gate afflvl state m) = Returned DEFER ->
  let off := sunxi_affinst_off D E mpidr afflvl state m in
  let sus := sunxi_affinst_suspend D E mpidr sec_entrypoint ns_entrypoint
               afflvl state m in
  (res off = Returned (PSCI_E_SUCCESS D) /\ hw_after off = m /\
   hw_actions (trace off) = [] /\
   ~ In arm_gic_cpuif_deactivate_ev (trace off) /\
   (forall cluster cpu, ~ In (sun50i_cpu_power_down_ev cluster cpu) (trace off)))
  /\
  (res sus = Returned (PSCI_E_SUCCESS D) /\ hw_after sus = m /\
   hw_actions (trace sus) = [] /\
   ~ In arm_gic_cpuif_deactivate_ev (trace sus) /\
   (forall cluster cpu, ~ In (sun50i_cpu_power_down_ev cluster cpu) (trace sus)) /\
   ~ In console_exit_ev (trace sus)).
Proof.
  intros Hdefer off sus. subst off sus.
  rewrite off_on_defer, suspend_on_defer by assumption.
  cbn [res hw_after trace].
  destruct (gate_frame afflvl state m) as [_ Hq].
  repeat split; auto; try intros cluster cpu;
    apply hw_actions_nil_not_In; auto.
Qed.

Lemma gate_act_now_inv afflvl state m :
  res (gate afflvl state m) = Returned 0 ->
  afflvl = max_off /\
  gate afflvl state m
  = mkResult (Returned 0) m
      [psci_get_max_phys_off_afflvl_ev; psci_get_suspend_afflvl_ev].
Proof.
  destruct (gate_paths afflvl state m); cbn [res]; intros Hr;
    try discriminate Hr; try (exfalso; inversion Hr; lia).
  split; auto.
Qed.

Lemma power_down_common_run afflvl mpidr sec_entrypoint m :
  sunxi_power_down_common D afflvl mpidr sec_entrypoint m
  = mkResult (Returned (PSCI_E_SUCCESS D)) m
      [arm_gic_cpuif_deactivate_ev;
       sun50i_cpu_power_down_ev (cluster_nr D mpidr) (cpu_nr D mpidr)].
Proof. reflexivity. Qed.

Lemma suspend_on_act_now mpidr sec_entrypoint ns_entrypoint afflvl state m :
  res (gate afflvl state m) = Returned 0 ->
  sunxi_affinst_suspend D E mpidr sec_entrypoint ns_entrypoint afflvl state m
  = mkResult (Returned (PSCI_E_SUCCESS D)) m
      ([psci_get_max_phys_off_afflvl_ev; psci_get_suspend_afflvl_ev;
        psci_get_suspend_afflvl_ev]
       ++ (if afflvl =? suspend_lvl then [console_exit_ev] else [])
       ++ trace (sunxi_power_down_common D afflvl mpidr sec_entrypoint m)).
Proof.
  intros Hact. destruct (gate_act_now_inv _ _ _ Hact) as [_ Hg].
  unfold sunxi_affinst_suspend, bind at 1. rewrite Hg. cbn [res hw_after trace].
  destruct (Z.eqb_spec 0 DEFER) as [H0|_]; [lia|].
  unfold psci_get_suspend_afflvl, bind, call, ret. cbn [res hw_after trace app].
  rewrite power_down_common_run. cbn [res hw_after trace app].
  destruct (afflvl =? suspend_lvl); reflexivity.
Qed.

(** C5: when the gate answers 0, the suspend handler calls console_exit
    exactly when its level is the suspend level the framework reports, and
    that call sits in the trace ahead of everything the power-down sequencer
    does; the handler then returns what the sequencer returns. *)
Theorem suspend_console_exit_iff_suspend_level
    (mpidr sec_entrypoint ns_entrypoint afflvl state : Z) (m : machine) :
  res (gate afflvl state m) = Returned 0 ->
  let sus := sunxi_affinst_suspend D E mpidr sec_entrypoint ns_entrypoint
               afflvl state m in
  let down := sunxi_power_down_common D afflvl mpidr sec_entrypoint m in
  (In console_exit_ev (trace sus) <-> afflvl = suspend_lvl) /\
  trace sus
  = trace (gate afflvl state m)
    ++ psci_get_suspend_afflvl_ev
       :: (if afflvl =? suspend_lvl then [console_exit_ev] else [])
    ++ trace down /\
  ~ In console_exit_ev (trace down) /\
  res sus = res down.
Proof.
  intros Hact sus down. subst sus down.
  rewrite suspend_on_act_now by assumption.
  destruct (gate_act_now_inv _ _ _ Hact) as [_ ->].
  rewrite power_down_common_run. cbn [res trace app].
  destruct (Z.eqb_spec afflvl suspend_lvl) as [Heq|Hne]; cbn [app In];
    repeat split; auto; try tauto;
    intros H; intuition discriminate.
Qed.

(** ** Finishers *)

(** With affinity field 0 at bit 0 and eight bits wide, the core number the
    other handlers decode is the low byte of the MPIDR. *)
Lemma cpu_nr_low_byte mpidr :
  MPIDR_AFF0_SHIFT D = 0 -> MPIDR_AFFLVL_MASK D = 0xff ->
  cpu_nr D mpidr = Z.land mpidr 0xff.
Proof.
  intros Hs Hm. unfold cpu_nr. rewrite Hs, Hm, Z.shiftr_0_r.
  change (u64 0xff) with 0xff. change 0xff with (Z.ones 8).
  rewrite Z.land_ones by lia.
  unfold to_int.
  change (2 ^ 8) with 256. change (2 ^ 31) with 2147483648.
  change (2 ^ 32) with 4294967296.
  assert (0 <= mpidr mod 256 < 256) by (apply Z.mod_pos_bound; lia).
  rewrite Z.mod_small; lia.
Qed.

Lemma on_finish_events mpidr afflvl state m e :
  In e (trace (sunxi_affinst_on_finish D E mpidr afflvl state m)) ->
  In e [psci_get_max_phys_off_afflvl_ev; psci_get_suspend_afflvl_ev;
        platform_smp_init_ev; arm_gic_cpuif_setup_ev;
        arm_gic_pcpu_distif_setup_ev].
Proof.
  unfold sunxi_affinst_on_finish, bind at 1.
  destruct (gate_paths afflvl state m); cbn [res hw_after trace];
    try (cbn [In]; tauto);
    try rewrite Z.eqb_refl;
    try (destruct (Z.eqb_spec 0 DEFER) as [H0|_]; [lia|]);
    unfold bind, call, ret; cbn [res hw_after trace app In]; tauto.
Qed.

(** C4: the suspend finisher calls arm_gic_init, arm_gic_setup and
    console_init exactly when its level is the suspend level the framework
    reports and the low byte of the MPIDR is 0, which for the usual layout
    of affinity field 0 says the core number is 0; whether or not it does,
    it goes on to run the on-finisher on the same arguments and returns that
    handler's result. *)
Theorem suspend_finish_reinit_iff_primary (mpidr afflvl state : Z) (m : machine) :
  let fin := sunxi_affinst_suspend_finish D E mpidr afflvl state m in
  let onf := sunxi_affinst_on_finish D E mpidr afflvl state m in
  let gic_init := arm_gic_init_ev (GICC_BASE D) (GICD_BASE D) 0 0 0 in
  let con_init := console_init_ev (SUNXI_UART0_BASE D) (UART0_CLK_IN_HZ D)
                    (UART0_BAUDRATE D) in
  trace fin
  = psci_get_suspend_afflvl_ev
    :: (if (afflvl =? suspend_lvl) && (Z.land mpidr 0xff =? 0)
        then [gic_init; arm_gic_setup_ev; con_init] else [])
    ++ trace onf /\
  res fin = res onf /\
  hw_after fin = hw_after onf /\
  (In gic_init (trace fin) <-> afflvl = suspend_lvl /\ Z.land mpidr 0xff = 0) /\
  (In arm_gic_setup_ev (trace fin)
   <-> afflvl = suspend_lvl /\ Z.land mpidr 0xff = 0) /\
  (In con_init (trace fin) <-> afflvl = suspend_lvl /\ Z.land mpidr 0xff = 0) /\
  (MPIDR_AFF0_SHIFT D = 0 -> MPIDR_AFFLVL_MASK D = 0xff ->
   (Z.land mpidr 0xff = 0 <-> cpu_nr D mpidr = 0)).
Proof.
  intros fin onf gic_init con_init.
  assert (Hrun : fin = mkResult (res onf) (hw_after onf)
            (psci_get_suspend_afflvl_ev
             :: (if (afflvl =? suspend_lvl) && (Z.land mpidr 0xff =? 0)
                 then [gic_init; arm_gic_setup_ev; con_init] else [])
             ++ trace onf)).
  { subst fin onf gic_init con_init.
    unfold sunxi_affinst_suspend_finish, psci_get_suspend_afflvl.
    unfold bind at 1 2 3, call at 1, ret at 1. cbn [res hw_after trace app].
    destruct ((afflvl =? suspend_lvl) && (Z.land mpidr 0xff =? 0));
      unfold bind, call, ret; cbn [res hw_after trace app];
      destruct (res (sunxi_do_plat_actions D E afflvl state m));
      reflexivity. }
  rewrite Hrun. cbn [res hw_after trace].
  assert (Hfresh : forall e, In e [gic_init; arm_gic_setup_ev; con_init] ->
                             ~ In e (trace onf)).
  { intros e He Hin. apply on_finish_events in Hin.
    subst gic_init con_init. cbn [In] in He, Hin.
    intuition (subst; discriminate). }
  assert (Hcond : (afflvl =? suspend_lvl) && (Z.land mpidr 0xff =? 0) = true
                  <-> afflvl = suspend_lvl /\ Z.land mpidr 0xff = 0).
  { rewrite andb_true_iff, !Z.eqb_eq. tauto. }
  assert (Hin : forall e, In e [gic_init; arm_gic_setup_ev; con_init] ->
            (In e (psci_get_suspend_afflvl_ev
                   :: (if (afflvl =? suspend_lvl) && (Z.land mpidr 0xff =? 0)
                       then [gic_init; arm_gic_setup_ev; con_init] else [])
                   ++ trace onf)
             <-> afflvl = suspend_lvl /\ Z.land mpidr 0xff = 0)).
  { intros e He. rewrite <- Hcond.
    destruct ((afflvl =? suspend_lvl) && (Z.land mpidr 0xff =? 0)).
    - split; [reflexivity|]. intros _. right. apply in_or_app. left. exact He.
    - split; [|discriminate]. intros [Hq|Hrest].
      + exfalso. subst gic_init con_init. cbn [In] in He.
        intuition (subst; discriminate).
      + exfalso. apply (Hfresh e He). exact Hrest. }
  do 3 (split; [reflexivity|]).
  split; [|split; [|split]]; try (apply Hin; cbn [In]; tauto).
  intros Hs Hm. rewrite cpu_nr_low_byte by assumption. tauto.
Qed.

(** ** Standby *)

Ltac run_standby :=
  unfold sunxi_affinst_standby, psci_get_pstate_afflvl, read_scr_el3,
    write_scr_el3, wfi, bind, call, ret;
  cbn [res hw_after trace app].

(** C6: for a power state whose level field is not the core level the
    standby handler returns PSCI_E_INVALID_PARAMS straight after decoding
    the level: SCR_EL3 is neither read nor written, no barrier and no wfi is
    issued, and the machine is unchanged. *)
Theorem standby_rejects_other_levels (power_state : Z) (m : machine) :
  u32 (pstate_afflvl E power_state) <> u32 (MPIDR_AFFLVL0 D) ->
  let r := sunxi_affinst_standby D E power_state m in
  res r = Returned (PSCI_E_INVALID_PARAMS D) /\
  trace r = [psci_get_pstate_afflvl_ev power_state] /\
  hw_actions (trace r) = [] /\
  hw_after r = m.
Proof.
  intros Hlvl r. subst r. run_standby.
  apply Z.eqb_neq in Hlvl. rewrite Hlvl. cbn [negb res hw_after trace app].
  repeat split.
Qed.

(** C7: for a power state at the core level the standby handler sets the
    IRQ bit in SCR_EL3, waits, and writes the value it first read back.
    If the core is woken, whatever SCR_EL3 holds at that point, the handler
    returns PSCI_E_SUCCESS with SCR_EL3 equal to its value before the call;
    the handler never returns in any other way. *)
Theorem standby_restores_scr_el3 (power_state : Z) (m : machine) :
  u32 (pstate_afflvl E power_state) = u32 (MPIDR_AFFLVL0 D) ->
  let r := sunxi_affinst_standby D E power_state m in
  let armed := {| scr_el3 := Z.lor (scr_el3 m) (u64 (SCR_IRQ_BIT D)) |} in
  (forall m', wfi_wake E armed = Some m' ->
     r = mkResult (Returned (PSCI_E_SUCCESS D)) m
           [psci_get_pstate_afflvl_ev power_state;
            read_scr_el3_ev;
            write_scr_el3_ev (Z.lor (scr_el3 m) (u64 (SCR_IRQ_BIT D)));
            isb_ev; dsb_ev; wfi_ev;
            write_scr_el3_ev (scr_el3 m)]) /\
  (wfi_wake E armed = None -> res r = Waiting) /\
  (forall v, res r = Returned v ->
     v = PSCI_E_SUCCESS D /\ scr_el3 (hw_after r) = scr_el3 m).
Proof.
  intros Hlvl r armed. subst r armed. run_standby.
  apply Z.eqb_eq in Hlvl. rewrite Hlvl. cbn [negb res hw_after trace app].
  destruct (wfi_wake E {| scr_el3 := Z.lor (scr_el3 m) (u64 (SCR_IRQ_BIT D)) |})
    as [m'|]; cbn [res hw_after trace app scr_el3].
  - split; [|split].
    + intros ? _. destruct m; reflexivity.
    + discriminate.
    + intros v Hv. inversion Hv. auto.
  - split; [|split].
    + discriminate.
    + reflexivity.
    + discriminate.
Qed.

(** ** Power-down sequencer *)

(** C10: the power-down sequencer does not look at its level or at the
    resume entry address: for one MPIDR it always deactivates the GIC CPU
    interface, powers down the decoded (cluster, core) and returns
    PSCI_E_SUCCESS.  Hence the suspend handler behaves the same for any two
    entry addresses, and never passes one to sun50i_set_secondary_entry. *)
Theorem power_down_common_ignores_entrypoint
    (afflvl afflvl' sec_entrypoint sec_entrypoint' mpidr : Z) (m : machine) :
  sunxi_power_down_common D afflvl mpidr sec_entrypoint m
  = sunxi_power_down_common D afflvl' mpidr sec_entrypoint' m /\
  sunxi_power_down_common D afflvl mpidr sec_entrypoint m
  = mkResult (Returned (PSCI_E_SUCCESS D)) m
      [arm_gic_cpuif_deactivate_ev;
       sun50i_cpu_power_down_ev (cluster_nr D mpidr) (cpu_nr D mpidr)] /\
  (forall ns_entrypoint ns_entrypoint' lvl state,
     sunxi_affinst_suspend D E mpidr sec_entrypoint ns_entrypoint lvl state m
     = sunxi_affinst_suspend D E mpidr sec_entrypoint' ns_entrypoint' lvl state m) /\
  (forall ns_entrypoint lvl state entry cpu,
     ~ In (sun50i_set_secondary_entry_ev entry cpu)
          (trace (sunxi_affinst_suspend D E mpidr sec_entrypoint ns_entrypoint
                    lvl state m))).
Proof.
  split; [reflexivity|]. split; [reflexivity|]. split.
  - reflexivity.
  - intros ns_entrypoint lvl state entry cpu.
    destruct (res (gate lvl state m)) as [v| | |] eqn:Hg.
    + destruct (gate_returns _ _ _ _ Hg) as [-> | ->].
      * rewrite suspend_on_act_now by assumption.
        rewrite power_down_common_run. cbn [trace app].
        destruct (lvl =? suspend_lvl); cbn [app In];
          intuition discriminate.
      * rewrite suspend_on_defer by assumption. cbn [trace].
        apply hw_actions_nil_not_In; [apply gate_frame | reflexivity].
    + unfold sunxi_affinst_suspend, bind at 1. rewrite Hg. cbn [trace].
      apply hw_actions_nil_not_In; [apply gate_frame | reflexivity].
    + unfold sunxi_affinst_suspend, bind at 1. rewrite Hg. cbn [trace].
      apply hw_actions_nil_not_In; [apply gate_frame | reflexivity].
    + unfold sunxi_affinst_suspend, bind at 1. rewrite Hg. cbn [trace].
      apply hw_actions_nil_not_In; [apply gate_frame | reflexivity].
Qed.

(** ** System reset *)

(** C9: system reset writes 1 to 0x01c20cb4, then 1 to 0x01c20cb8, then
    (0xa57 << 1) | 0x01 to 0x01c20cb0, and these are all its register
    writes; next it executes wfi.  It stays there if the core is never
    woken and panics otherwise: it never returns to its caller. *)
Theorem system_reset_writes_then_never_returns (m : machine) :
  let r := sunxi_system_reset E m in
  let writes := [mmio_write_32_ev 0x01c20cb4 1;
                 mmio_write_32_ev 0x01c20cb8 1;
                 mmio_write_32_ev 0x01c20cb0 (Z.lor (Z.shiftl 0xa57 1) 0x01)] in
  (exists rest, trace r = writes ++ wfi_ev :: rest /\ mmio_writes rest = []) /\
  mmio_writes (trace r)
  = [(0x01c20cb4, 1); (0x01c20cb8, 1);
     (0x01c20cb0, Z.lor (Z.shiftl 0xa57 1) 0x01)] /\
  (forall v, res r <> Returned v) /\
  (wfi_wake E m = None -> res r = Waiting /\ trace r = writes ++ [wfi_ev]) /\
  (wfi_wake E m <> None -> res r = Panicked).
Proof.
  intros r writes. subst r writes.
  unfold sunxi_system_reset, wfi, panic, bind, call, ret.
  cbn [res hw_after trace app].
  destruct (wfi_wake E m) as [m'|]; cbn [res hw_after trace app].
  - split; [eexists; split; [reflexivity|reflexivity]|].
    split; [reflexivity|]. split; [discriminate|].
    split; [discriminate|reflexivity].
  - split; [exists []; split; reflexivity|].
    split; [reflexivity|]. split; [discriminate|].
    split; [auto|]. intros H; contradiction.
Qed.

End Properties.

(** * The theorems at work on the upstream platform *)

(** Off for core 2 of cluster 1 at level 0, level 0 being the one that goes
    off: one GIC deactivation and one power-down of (1, 2). *)
Example off_core2_cluster1_at_boundary :
  sunxi_affinst_off upstream_def (env_of 0 (-1) wake_plain) 0x102 0 1 m0
  = mkResult (Returned 0) m0
      [psci_get_max_phys_off_afflvl_ev; psci_get_suspend_afflvl_ev;
       arm_gic_cpuif_deactivate_ev; sun50i_cpu_power_down_ev 1 2].
Proof. reflexivity. Qed.

(** Off at level 1 while level 0 is the one that goes off: deferred. *)
Example off_above_boundary_deferred :
  sunxi_affinst_off upstream_def (env_of 0 (-1) wake_plain) 0x102 1 1 m0
  = mkResult (Returned 0) m0
      [psci_get_max_phys_off_afflvl_ev; psci_get_suspend_afflvl_ev].
Proof. reflexivity. Qed.

(** Standby with a power state that encodes level 1. *)
Example standby_level1_rejected :
  sunxi_affinst_standby upstream_def (env_of 0 0 wake_plain) 0x01000000 m0
  = mkResult (Returned (-2)) m0 [psci_get_pstate_afflvl_ev 0x01000000].
Proof. reflexivity. Qed.

(** Power-up of core 3 of cluster 0 with entry 0x40000000. *)
Example on_core3 :
  sunxi_affinst_on upstream_def 0x3 0x40000000 0x80000 0 1 m0
  = mkResult (Returned 0) m0
      [sun50i_set_secondary_entry_ev 0x40000000 3;
       sun50i_cpu_power_up_ev 0 3].
Proof. reflexivity. Qed.

(** System reset on a core that is woken again. *)
Example system_reset_woken :
  sunxi_system_reset (env_of 0 0 wake_plain) m0
  = mkResult Panicked m0
      [mmio_write_32_ev 0x01c20cb4 1; mmio_write_32_ev 0x01c20cb8 1;
       mmio_write_32_ev 0x01c20cb0 0x14af; wfi_ev;
       ERROR_ev "Sunxi System Reset: operation not handled.\n" [];
       panic_ev].
Proof. reflexivity. Qed.

Lemma gate_act_now_iff_max_phys_off_witness :
  1 = u32 (PSCI_STATE_OFF upstream_def) /\
  1 <= u32 (MPIDR_MAX_AFFLVL upstream_def) /\
  u32 1 <> u32 (PSCI_INVALID_DATA upstream_def) /\
  u32 1 <= u32 1 /\
  (res (sunxi_do_plat_actions upstream_def (env_of 1 1 wake_plain) 1 1 m0)
   = Returned 0 <-> 1 = u32 1).
Proof.
  split; [reflexivity|]. split; [now vm_compute|].
  split; [now vm_compute|]. split; [now vm_compute|].
  apply (gate_act_now_iff_max_phys_off upstream_def (env_of 1 1 wake_plain)
           1 1 m0);
    [reflexivity | now vm_compute | now vm_compute | now vm_compute].
Defined.

Lemma gate_defers_when_not_off_witness :
  2 <= u32 (MPIDR_MAX_AFFLVL upstream_def) /\
  0 <> u32 (PSCI_STATE_OFF upstream_def) /\
  res (sunxi_do_plat_actions upstream_def (env_of 0 0 wake_plain) 2 0 m0)
  = Returned (-11).
Proof.
  split; [now vm_compute|]. split; [now vm_compute|].
  apply (gate_defers_when_not_off upstream_def (env_of 0 0 wake_plain) 2 0 m0);
    now vm_compute.
Defined.

(** C2 as written fails: at level 3, above MPIDR_MAX_AFFLVL, with state ON
    the gate's first assertion fires instead of -EAGAIN coming back. *)
Lemma gate_not_off_above_max_level_asserts :
  0 <> u32 (PSCI_STATE_OFF upstream_def) /\
  res (sunxi_do_plat_actions upstream_def (env_of 0 0 wake_plain) 3 0 m0)
  = AssertFailed /\
  res (sunxi_do_plat_actions upstream_def (env_of 0 0 wake_plain) 3 0 m0)
  <> Returned (- Z.pos (EAGAIN upstream_def)).
Proof.
  split; [now vm_compute|]. split; [reflexivity|].
  vm_compute. discriminate.
Qed.

Lemma gate_assertions_fire_exactly_witness :
  (* off transition at core level, no report of the level going off *)
  res (sunxi_do_plat_actions upstream_def (env_of (-1) (-1) wake_plain) 0 1 m0)
  = AssertFailed /\
  (* suspend to level 0 reported with level 1 going off *)
  res (sunxi_do_plat_actions upstream_def (env_of 1 0 wake_plain) 1 1 m0)
  = AssertFailed /\
  (* valid reports *)
  res (sunxi_do_plat_actions upstream_def (env_of 1 2 wake_plain) 1 1 m0)
  <> AssertFailed.
Proof.
  split; [|split].
  - apply (proj1 (gate_assertions_fire_exactly upstream_def
                     (env_of (-1) (-1) wake_plain) 0 1 m0));
      [reflexivity | left; reflexivity].
  - apply (proj1 (gate_assertions_fire_exactly upstream_def
                     (env_of 1 0 wake_plain) 1 1 m0));
      [reflexivity | right; now vm_compute].
  - apply (proj1 (proj2 (gate_assertions_fire_exactly upstream_def
                           (env_of 1 2 wake_plain) 1 1 m0)));
      now vm_compute.
Defined.

(** Off at level 1 while level 0 is the one going off: nothing happens. *)
Lemma off_and_suspend_do_nothing_on_defer_witness :
  res (sunxi_do_plat_actions upstream_def (env_of 0 (-1) wake_plain) 1 1 m0)
  = Returned (- Z.pos (EAGAIN upstream_def)) /\
  res (sunxi_affinst_off upstream_def (env_of 0 (-1) wake_plain) 0x102 1 1 m0)
  = Returned (PSCI_E_SUCCESS upstream_def) /\
  hw_actions
    (trace (sunxi_affinst_off upstream_def (env_of 0 (-1) wake_plain)
              0x102 1 1 m0)) = [].
Proof.
  split; [reflexivity|].
  pose proof (off_and_suspend_do_nothing_on_defer upstream_def
                (env_of 0 (-1) wake_plain) 0x102 0 0 1 1 m0 eq_refl) as W.
  cbv zeta in W. destruct W as [[Hres [_ [Hhw _]]] _].
  split; [exact Hres | exact Hhw].
Defined.

(** Suspend of cluster 1, called for core 2 at the cluster level. *)
Lemma suspend_console_exit_iff_suspend_level_witness :
  res (sunxi_do_plat_actions upstream_def (env_of 1 1 wake_plain) 1 1 m0)
  = Returned 0 /\
  (In console_exit_ev
      (trace (sunxi_affinst_suspend upstream_def (env_of 1 1 wake_plain)
                0x102 0x40000000 0x80000 1 1 m0))
   <-> 1 = u32 1).
Proof.
  split; [reflexivity|].
  pose proof (suspend_console_exit_iff_suspend_level upstream_def
                (env_of 1 1 wake_plain) 0x102 0x40000000 0x80000 1 1 m0
                eq_refl) as W.
  cbv zeta in W. exact (proj1 W).
Defined.

Lemma suspend_finish_reinit_iff_primary_witness :
  MPIDR_AFF0_SHIFT upstream_def = 0 /\
  MPIDR_AFFLVL_MASK upstream_def = 0xff /\
  (Z.land 0x100 0xff = 0 <-> cpu_nr upstream_def 0x100 = 0).
Proof.
  split; [reflexivity|]. split; [reflexivity|].
  pose proof (suspend_finish_reinit_iff_primary upstream_def
                (env_of 1 1 wake_plain) 0x100 1 1 m0) as W.
  cbv zeta in W.
  exact (proj2 (proj2 (proj2 (proj2 (proj2 (proj2 W))))) eq_refl eq_refl).
Defined.

(** A power state asking for standby at level 1. *)
Lemma standby_rejects_other_levels_witness :
  u32 (upstream_pstate_afflvl 0x01000000) <> u32 (MPIDR_AFFLVL0 upstream_def) /\
  res (sunxi_affinst_standby upstream_def (env_of 0 0 wake_plain) 0x01000000 m0)
  = Returned (PSCI_E_INVALID_PARAMS upstream_def) /\
  trace (sunxi_affinst_standby upstream_def (env_of 0 0 wake_plain)
           0x01000000 m0)
  = [psci_get_pstate_afflvl_ev 0x01000000].
Proof.
  assert (H : u32 (pstate_afflvl (env_of 0 0 wake_plain) 0x01000000)
              <> u32 (MPIDR_AFFLVL0 upstream_def)) by now vm_compute.
  split; [exact H|].
  pose proof (standby_rejects_other_levels upstream_def
                (env_of 0 0 wake_plain) 0x01000000 m0 H) as W.
  cbv zeta in W. destruct W as [Hres [Htr _]].
  split; [exact Hres | exact Htr].
Defined.

(** Standby at the core level, woken by an interrupt whose handling left 0
    in SCR_EL3. *)
Lemma standby_restores_scr_el3_witness :
  u32 (upstream_pstate_afflvl 0) = u32 (MPIDR_AFFLVL0 upstream_def) /\
  wake_clobber {| scr_el3 := Z.lor 0x30 (u64 (SCR_IRQ_BIT upstream_def)) |}
  = Some {| scr_el3 := 0 |} /\
  res (sunxi_affinst_standby upstream_def (env_of 0 0 wake_clobber) 0 m0)
  = Returned (PSCI_E_SUCCESS upstream_def) /\
  hw_after (sunxi_affinst_standby upstream_def (env_of 0 0 wake_clobber) 0 m0)
  = m0.
Proof.
  split; [reflexivity|]. split; [reflexivity|].
  pose proof (standby_restores_scr_el3 upstream_def
                (env_of 0 0 wake_clobber) 0 m0 eq_refl) as W.
  cbv zeta in W. destruct W as [Hwake _].
  rewrite (Hwake {| scr_el3 := 0 |} eq_refl). split; reflexivity.
Defined.

Lemma system_reset_writes_then_never_returns_witness :
  wfi_wake (env_of 0 0 wake_never) m0 = None /\
  res (sunxi_system_reset (env_of 0 0 wake_never) m0) = Waiting.
Proof.
  split; [reflexivity|].
  pose proof (system_reset_writes_then_never_returns
                (env_of 0 0 wake_never) m0) as W.
  cbv zeta in W.
  exact (proj1 (proj1 (proj2 (proj2 (proj2 W))) eq_refl)).
Defined.

(** * Further properties of the handlers *)

Section MoreProperties.

Variable D : platform_def.
Variable E : environment.

Local Notation "'gate'" := (sunxi_do_plat_actions D E).
Local Notation "'max_off'" := (u32 (max_phys_off_afflvl_report E)).
Local Notation "'suspend_lvl'" := (u32 (suspend_afflvl_report E)).
Local Notation "'DEFER'" := (- Z.pos (EAGAIN D)).
Local Notation "'SUCCESS'" := (PSCI_E_SUCCESS D).

(** ** The gate *)

(** X1: the gate ends in one of three ways, returning 0, returning -EAGAIN
    or on a failed assertion; it never waits or panics.  It leaves the
    machine alone and calls nothing but the two framework queries: the
    maximum-physical-off one at most once and, only after it, the suspend
    one at most once. *)
Theorem gate_outcomes_and_queries (afflvl state : Z) (m : machine) :
  (res (gate afflvl state m) = Returned 0 \/
   res (gate afflvl state m) = Returned DEFER \/
   res (gate afflvl state m) = AssertFailed) /\
  hw_after (gate afflvl state m) = m /\
  (trace (gate afflvl state m) = [] \/
   trace (gate afflvl state m) = [psci_get_max_phys_off_afflvl_ev] \/
   trace (gate afflvl state m)
   = [psci_get_max_phys_off_afflvl_ev; psci_get_suspend_afflvl_ev]).
Proof.
  destruct (gate_paths D E afflvl state m); cbn [res hw_after trace]; tauto.
Qed.

(** X2: the gate answers 0 only at the physical boundary.  If it returns 0
    then the state is OFF, the level is within the hierarchy and equals the
    reported maximum-physical-off level, which is valid and not above the
    suspend level.  In particular, for one transition, two calls that both
    return 0 were made for the same level. *)
Theorem gate_act_now_only_at_boundary (afflvl state : Z) (m : machine) :
  res (gate afflvl state m) = Returned 0 ->
  (state = u32 (PSCI_STATE_OFF D) /\
   afflvl = max_off /\
   afflvl <= u32 (MPIDR_MAX_AFFLVL D) /\
   max_off <> u32 (PSCI_INVALID_DATA D) /\
   max_off <= suspend_lvl) /\
  (forall afflvl' state' m',
     res (gate afflvl' state' m') = Returned 0 -> afflvl' = afflvl).
Proof.
  intros Hact. split.
  - destruct (gate_paths D E afflvl state m); cbn [res] in Hact;
      try discriminate Hact; try (exfalso; inversion Hact; lia).
    tauto.
  - intros afflvl' state' m' Hact'.
    apply gate_act_now_inv in Hact. apply gate_act_now_inv in Hact'.
    destruct Hact as [-> _]. destruct Hact' as [-> _]. reflexivity.
Qed.

(** ** Power-up *)

(** X3: the power-up handler acts at the core level only.  There it
    programs the entry address for the decoded core and then powers the
    decoded (cluster, core) up; at any other level it calls nothing.  It
    always returns PSCI_E_SUCCESS, never asks the framework anything, and
    its behaviour does not depend on the state or on the non-secure entry
    point. *)
Theorem on_acts_at_core_level_only
    (mpidr sec_entrypoint ns_entrypoint afflvl state : Z) (m : machine) :
  sunxi_affinst_on D mpidr sec_entrypoint ns_entrypoint afflvl state m
  = mkResult (Returned SUCCESS) m
      (if afflvl =? u32 (MPIDR_AFFLVL0 D)
       then [sun50i_set_secondary_entry_ev sec_entrypoint (cpu_nr D mpidr);
             sun50i_cpu_power_up_ev (cluster_nr D mpidr) (cpu_nr D mpidr)]
       else []) /\
  (forall cluster cpu,
     In (sun50i_cpu_power_up_ev cluster cpu)
        (trace (sunxi_affinst_on D mpidr sec_entrypoint ns_entrypoint
                  afflvl state m))
     <-> afflvl = u32 (MPIDR_AFFLVL0 D) /\
         cluster = cluster_nr D mpidr /\ cpu = cpu_nr D mpidr) /\
  (forall ns_entrypoint' state',
     sunxi_affinst_on D mpidr sec_entrypoint ns_entrypoint' afflvl state' m
     = sunxi_affinst_on D mpidr sec_entrypoint ns_entrypoint afflvl state m).
Proof.
  assert (Hrun : sunxi_affinst_on D mpidr sec_entrypoint ns_entrypoint
                   afflvl state m
          = mkResult (Returned SUCCESS) m
              (if afflvl =? u32 (MPIDR_AFFLVL0 D)
               then [sun50i_set_secondary_entry_ev sec_entrypoint
                       (cpu_nr D mpidr);
                     sun50i_cpu_power_up_ev (cluster_nr D mpidr)
                       (cpu_nr D mpidr)]
               else [])).
  { unfold sunxi_affinst_on.
    destruct (afflvl =? u32 (MPIDR_AFFLVL0 D)); reflexivity. }
  split; [exact Hrun|]. split; [|reflexivity].
  intros cluster cpu. rewrite Hrun. cbn [trace].
  destruct (Z.eqb_spec afflvl (u32 (MPIDR_AFFLVL0 D))) as [Heq|Hne];
    cbn [In]; split.
  - intros [H|[H|[]]]; [discriminate H|]. inversion H. auto.
  - intros [_ [-> ->]]. auto.
  - intros [].
  - intros [H _]. contradiction.
Qed.

(** ** Handlers behind the gate *)

Lemma zero_is_not_DEFER : (0 =? DEFER) = false.
Proof. apply Z.eqb_neq. lia. Qed.

(** What a handler that starts with the gate does, by the gate's answer. *)
Lemma gated_handler_run (k : Z -> M Z) afflvl state m :
  (res (gate afflvl state m) = Returned 0 ->
   bind (gate afflvl state) k m
   = mkResult (res (k 0 m)) (hw_after (k 0 m))
       (trace (gate afflvl state m) ++ trace (k 0 m))) /\
  (res (gate afflvl state m) = Returned DEFER ->
   bind (gate afflvl state) k m
   = mkResult (res (k DEFER m)) (hw_after (k DEFER m))
       (trace (gate afflvl state m) ++ trace (k DEFER m))) /\
  (res (gate afflvl state m) = AssertFailed ->
   bind (gate afflvl state) k m
   = mkResult AssertFailed m (trace (gate afflvl state m))).
Proof.
  unfold bind. destruct (gate_frame D E afflvl state m) as [-> _].
  repeat split; intros ->; reflexivity.
Qed.

Lemma gate_outcomes_cases afflvl state m :
  res (gate afflvl state m) = Returned 0 \/
  res (gate afflvl state m) = Returned DEFER \/
  res (gate afflvl state m) = AssertFailed.
Proof. destruct (gate_paths D E afflvl state m); cbn [res]; tauto. Qed.

Lemma off_act_now_run mpidr afflvl state m :
  res (gate afflvl state m) = Returned 0 ->
  sunxi_affinst_off D E mpidr afflvl state m
  = mkResult (Returned SUCCESS) m
      [psci_get_max_phys_off_afflvl_ev; psci_get_suspend_afflvl_ev;
       arm_gic_cpuif_deactivate_ev;
       sun50i_cpu_power_down_ev (cluster_nr D mpidr) (cpu_nr D mpidr)].
Proof.
  intros Hg. unfold sunxi_affinst_off.
  rewrite (proj1 (gated_handler_run _ afflvl state m) Hg).
  rewrite zero_is_not_DEFER.
  destruct (gate_act_now_inv D E _ _ _ Hg) as [_ ->].
  reflexivity.
Qed.

(** X4: the power-up finisher sets the core up exactly when the gate
    answers 0: platform_smp_init, then arm_gic_cpuif_setup, then
    arm_gic_pcpu_distif_setup, in that order after the gate's queries.  When
    the gate answers -EAGAIN it calls nothing more.  Either way it returns
    PSCI_E_SUCCESS with the machine unchanged, and the MPIDR plays no part. *)
Theorem on_finish_sets_up_core_on_act_now (mpidr afflvl state : Z) (m : machine) :
  (res (gate afflvl state m) = Returned 0 ->
   sunxi_affinst_on_finish D E mpidr afflvl state m
   = mkResult (Returned SUCCESS) m
       (trace (gate afflvl state m)
        ++ [platform_smp_init_ev; arm_gic_cpuif_setup_ev;
            arm_gic_pcpu_distif_setup_ev])) /\
  (res (gate afflvl state m) = Returned DEFER ->
   sunxi_affinst_on_finish D E mpidr afflvl state m
   = mkResult (Returned SUCCESS) m (trace (gate afflvl state m))) /\
  (forall mpidr',
     sunxi_affinst_on_finish D E mpidr' afflvl state m
     = sunxi_affinst_on_finish D E mpidr afflvl state m).
Proof.
  unfold sunxi_affinst_on_finish.
  split; [|split; [|reflexivity]]; intros Hg.
  - rewrite (proj1 (gated_handler_run _ afflvl state m) Hg).
    rewrite zero_is_not_DEFER. reflexivity.
  - rewrite (proj1 (proj2 (gated_handler_run _ afflvl state m)) Hg).
    rewrite Z.eqb_refl. cbn [ret res hw_after trace].
    rewrite app_nil_r. reflexivity.
Qed.

(** X5: when the gate answers 0 the off handler does the gate's two
    queries, deactivates the GIC CPU interface and powers down the
    (cluster, core) decoded from the MPIDR, in that order and nothing else,
    and returns PSCI_E_SUCCESS. *)
Theorem off_powers_down_on_act_now (mpidr afflvl state : Z) (m : machine) :
  res (gate afflvl state m) = Returned 0 ->
  sunxi_affinst_off D E mpidr afflvl state m
  = mkResult (Returned SUCCESS) m
      [psci_get_max_phys_off_afflvl_ev; psci_get_suspend_afflvl_ev;
       arm_gic_cpuif_deactivate_ev;
       sun50i_cpu_power_down_ev (cluster_nr D mpidr) (cpu_nr D mpidr)].
Proof.
  intros Hg. unfold sunxi_affinst_off.
  rewrite (proj1 (gated_handler_run _ afflvl state m) Hg).
  rewrite zero_is_not_DEFER.
  destruct (gate_act_now_inv D E _ _ _ Hg) as [_ ->].
  reflexivity.
Qed.

(** X6: a failed assertion in the gate stops the off, suspend and power-up
    finisher handlers on the spot: they end with that failure, having called
    nothing beyond the gate's own queries, so no driver or actuator runs. *)
Theorem gate_assertion_stops_handlers
    (mpidr sec_entrypoint ns_entrypoint afflvl state : Z) (m : machine) :
  res (gate afflvl state m) = AssertFailed ->
  sunxi_affinst_off D E mpidr afflvl state m
  = mkResult AssertFailed m (trace (gate afflvl state m)) /\
  sunxi_affinst_suspend D E mpidr sec_entrypoint ns_entrypoint afflvl state m
  = mkResult AssertFailed m (trace (gate afflvl state m)) /\
  sunxi_affinst_on_finish D E mpidr afflvl state m
  = mkResult AssertFailed m (trace (gate afflvl state m)) /\
  hw_actions (trace (gate afflvl state m)) = [].
Proof.
  intros Hg.
  unfold sunxi_affinst_off, sunxi_affinst_suspend, sunxi_affinst_on_finish.
  rewrite !(proj2 (proj2 (gated_handler_run _ afflvl state m)) Hg).
  do 3 (split; [reflexivity|]). apply gate_frame.
Qed.

(** X7: the suspend handler is the off handler with the console shutdown
    put in front of the power-down.  Both end the same way; their driver
    and actuator calls are the same, except that suspend has console_exit
    first when the gate answers 0 at the reported suspend level. *)
Theorem suspend_is_off_plus_console_exit
    (mpidr sec_entrypoint ns_entrypoint afflvl state : Z) (m : machine) :
  let sus := sunxi_affinst_suspend D E mpidr sec_entrypoint ns_entrypoint
               afflvl state m in
  let off := sunxi_affinst_off D E mpidr afflvl state m in
  res sus = res off /\
  hw_after sus = hw_after off /\
  (res (gate afflvl state m) = Returned 0 -> afflvl = suspend_lvl ->
   hw_actions (trace sus) = console_exit_ev :: hw_actions (trace off)) /\
  (res (gate afflvl state m) <> Returned 0 \/ afflvl <> suspend_lvl ->
   hw_actions (trace sus) = hw_actions (trace off)).
Proof.
  intros sus off. subst sus off.
  destruct (gate_outcomes_cases afflvl state m) as [Hg|[Hg|Hg]].
  - rewrite suspend_on_act_now, off_act_now_run by assumption.
    rewrite power_down_common_run. cbn [res hw_after trace app].
    split; [reflexivity|]. split; [reflexivity|]. split.
    + intros _ Heq. apply Z.eqb_eq in Heq. rewrite Heq. reflexivity.
    + intros [Hne|Hne]; [contradiction|].
      apply Z.eqb_neq in Hne. rewrite Hne. reflexivity.
  - rewrite suspend_on_defer, off_on_defer by assumption.
    cbn [res hw_after trace].
    split; [reflexivity|]. split; [reflexivity|]. split.
    + intros H0. rewrite Hg in H0. inversion H0; lia.
    + reflexivity.
  - unfold sunxi_affinst_off, sunxi_affinst_suspend.
    rewrite !(proj2 (proj2 (gated_handler_run _ afflvl state m)) Hg).
    cbn [res hw_after trace].
    split; [reflexivity|]. split; [reflexivity|]. split.
    + intros H0. rewrite Hg in H0. discriminate H0.
    + reflexivity.
Qed.

Lemma on_finish_run mpidr afflvl state m :
  sunxi_affinst_on_finish D E mpidr afflvl state m
  = match res (gate afflvl state m) with
    | Returned v =>
        mkResult (Returned SUCCESS) m
          (trace (gate afflvl state m)
           ++ (if v =? DEFER then []
               else [platform_smp_init_ev; arm_gic_cpuif_setup_ev;
                     arm_gic_pcpu_distif_setup_ev]))
    | _ => mkResult AssertFailed m (trace (gate afflvl state m))
    end.
Proof.
  unfold sunxi_affinst_on_finish.
  destruct (gate_outcomes_cases afflvl state m) as [Hg|[Hg|Hg]].
  - rewrite (proj1 (gated_handler_run _ afflvl state m) Hg), Hg.
    rewrite zero_is_not_DEFER. reflexivity.
  - rewrite (proj1 (proj2 (gated_handler_run _ afflvl state m)) Hg), Hg.
    rewrite Z.eqb_refl. reflexivity.
  - rewrite (proj2 (proj2 (gated_handler_run _ afflvl state m)) Hg), Hg.
    reflexivity.
Qed.

Lemma suspend_finish_run mpidr afflvl state m :
  sunxi_affinst_suspend_finish D E mpidr afflvl state m
  = let onf := sunxi_affinst_on_finish D E mpidr afflvl state m in
    mkResult (res onf) (hw_after onf)
      (psci_get_suspend_afflvl_ev
       :: (if (afflvl =? suspend_lvl) && (Z.land mpidr 0xff =? 0)
           then [arm_gic_init_ev (GICC_BASE D) (GICD_BASE D) 0 0 0;
                 arm_gic_setup_ev;
                 console_init_ev (SUNXI_UART0_BASE D) (UART0_CLK_IN_HZ D)
                   (UART0_BAUDRATE D)]
           else [])
       ++ trace onf).
Proof.
  cbv zeta. rewrite on_finish_run.
  unfold sunxi_affinst_suspend_finish, psci_get_suspend_afflvl.
  unfold bind at 1 2 3, call at 1, ret at 1. cbn [res hw_after trace app].
  fold (sunxi_affinst_on_finish D E mpidr afflvl state).
  destruct ((afflvl =? suspend_lvl) && (Z.land mpidr 0xff =? 0));
    unfold bind, call, ret; cbn [res hw_after trace app];
    rewrite on_finish_run;
    destruct (res (gate afflvl state m)); reflexivity.
Qed.


Lemma suspend_run mpidr sec_entrypoint ns_entrypoint afflvl state m :
  sunxi_affinst_suspend D E mpidr sec_entrypoint ns_entrypoint afflvl state m
  = match res (gate afflvl state m) with
    | Returned v =>
        mkResult (Returned SUCCESS) m
          (trace (gate afflvl state m)
           ++ (if v =? DEFER then []
               else psci_get_suspend_afflvl_ev
                    :: (if afflvl =? suspend_lvl then [console_exit_ev]
                        else [])
                    ++ [arm_gic_cpuif_deactivate_ev;
                        sun50i_cpu_power_down_ev (cluster_nr D mpidr)
                          (cpu_nr D mpidr)]))
    | _ => mkResult AssertFailed m (trace (gate afflvl state m))
    end.
Proof.
  unfold sunxi_affinst_suspend.
  destruct (gate_outcomes_cases afflvl state m) as [Hg|[Hg|Hg]].
  - rewrite (proj1 (gated_handler_run _ afflvl state m) Hg), Hg.
    rewrite zero_is_not_DEFER.
    unfold psci_get_suspend_afflvl, bind, call, ret.
    cbn [res hw_after trace app].
    destruct (afflvl =? suspend_lvl); reflexivity.
  - rewrite (proj1 (proj2 (gated_handler_run _ afflvl state m)) Hg), Hg.
    rewrite Z.eqb_refl. reflexivity.
  - rewrite (proj2 (proj2 (gated_handler_run _ afflvl state m)) Hg), Hg.
    reflexivity.
Qed.

(** X8: the handlers only ever report success.  Whatever the power-up,
    power-up finisher, off, suspend and suspend finisher handlers do, a
    value they return is PSCI_E_SUCCESS; the standby handler returns
    PSCI_E_SUCCESS or PSCI_E_INVALID_PARAMS.  No actuator or driver status
    reaches the framework. *)
Theorem handlers_return_success_only
    (mpidr sec_entrypoint ns_entrypoint afflvl state power_state v : Z)
    (m : machine) :
  (res (sunxi_affinst_on D mpidr sec_entrypoint ns_entrypoint afflvl state m)
   = Returned v -> v = SUCCESS) /\
  (res (sunxi_affinst_on_finish D E mpidr afflvl state m) = Returned v ->
   v = SUCCESS) /\
  (res (sunxi_affinst_off D E mpidr afflvl state m) = Returned v ->
   v = SUCCESS) /\
  (res (sunxi_affinst_suspend D E mpidr sec_entrypoint ns_entrypoint
          afflvl state m) = Returned v -> v = SUCCESS) /\
  (res (sunxi_affinst_suspend_finish D E mpidr afflvl state m) = Returned v ->
   v = SUCCESS) /\
  (res (sunxi_affinst_standby D E power_state m) = Returned v ->
   v = SUCCESS \/ v = PSCI_E_INVALID_PARAMS D).
Proof.
  split; [|split; [|split; [|split; [|split]]]].
  - unfold sunxi_affinst_on.
    destruct (afflvl =? u32 (MPIDR_AFFLVL0 D)); cbn; intros H;
      inversion H; reflexivity.
  - rewrite on_finish_run.
    destruct (res (gate afflvl state m)); cbn [res]; intros H;
      inversion H; reflexivity.
  - destruct (gate_outcomes_cases afflvl state m) as [Hg|[Hg|Hg]].
    + rewrite off_act_now_run by assumption. cbn [res]. intros H.
      inversion H; reflexivity.
    + rewrite off_on_defer by assumption. cbn [res]. intros H.
      inversion H; reflexivity.
    + unfold sunxi_affinst_off.
      rewrite (proj2 (proj2 (gated_handler_run _ afflvl state m)) Hg).
      cbn [res]. discriminate.
  - destruct (gate_outcomes_cases afflvl state m) as [Hg|[Hg|Hg]].
    + rewrite suspend_on_act_now by assumption. cbn [res]. intros H.
      inversion H; reflexivity.
    + rewrite suspend_on_defer by assumption. cbn [res]. intros H.
      inversion H; reflexivity.
    + unfold sunxi_affinst_suspend.
      rewrite (proj2 (proj2 (gated_handler_run _ afflvl state m)) Hg).
      cbn [res]. discriminate.
  - rewrite suspend_finish_run. cbv zeta. cbn [res]. rewrite on_finish_run.
    destruct (res (gate afflvl state m)); cbn [res]; intros H;
      inversion H; reflexivity.
  - unfold sunxi_affinst_standby, psci_get_pstate_afflvl, read_scr_el3,
      write_scr_el3, wfi, bind, call, ret.
    cbn [res hw_after trace app].
    destruct (u32 (pstate_afflvl E power_state) =? u32 (MPIDR_AFFLVL0 D));
      cbn [negb res hw_after trace app].
    + destruct (wfi_wake E _); cbn [res]; intros H; inversion H; auto.
    + intros H; inversion H; auto.
Qed.


(** ** Decoding the MPIDR *)

(** An eight-bit field taken out of any 64-bit-or-not value and stored in an
    [int] is that value modulo 256. *)
Lemma byte_field_to_int (a : Z) : to_int (Z.land a (u64 0xff)) = a mod 256.
Proof.
  change (u64 0xff) with (Z.ones 8). rewrite Z.land_ones by lia.
  unfold to_int.
  change (2 ^ 8) with 256. change (2 ^ 31) with 2147483648.
  change (2 ^ 32) with 4294967296.
  assert (0 <= a mod 256 < 256) by (apply Z.mod_pos_bound; lia).
  rewrite Z.mod_small; lia.
Qed.

(** X10: with the eight-bit affinity mask, the core and cluster numbers
    handed to the actuators lie in 0..255 for every MPIDR, well formed or
    not, and whatever the field positions are. *)
Theorem decoded_indices_are_bytes (mpidr : Z) :
  MPIDR_AFFLVL_MASK D = 0xff ->
  0 <= cpu_nr D mpidr < 256 /\ 0 <= cluster_nr D mpidr < 256.
Proof.
  intros Hm. unfold cpu_nr, cluster_nr. rewrite Hm, !byte_field_to_int.
  split; apply Z.mod_pos_bound; lia.
Qed.

(** X11: with affinity field 0 at bit 0, field 1 at bit 8 and the eight-bit
    mask, decoding gives back the core and cluster an MPIDR was built from,
    whatever sits in the higher fields. *)
Theorem decode_of_composed_mpidr (upper cluster cpu : Z) :
  MPIDR_AFF0_SHIFT D = 0 ->
  MPIDR_AFF1_SHIFT D = 8 ->
  MPIDR_AFFLVL_MASK D = 0xff ->
  0 <= cpu < 256 ->
  0 <= cluster < 256 ->
  let mpidr := upper * 2 ^ 16 + cluster * 2 ^ 8 + cpu in
  cpu_nr D mpidr = cpu /\ cluster_nr D mpidr = cluster.
Proof.
  intros H0 H1 Hm Hcpu Hcl mpidr. subst mpidr.
  unfold cpu_nr, cluster_nr. rewrite H0, H1, Hm, !byte_field_to_int.
  rewrite Z.shiftr_0_r, Z.shiftr_div_pow2 by lia.
  change (2 ^ 16) with (256 * 256). change (2 ^ 8) with 256.
  replace (upper * (256 * 256) + cluster * 256 + cpu)
    with (cpu + (upper * 256 + cluster) * 256) by ring.
  split.
  - rewrite Z.mod_add by lia. apply Z.mod_small. lia.
  - rewrite Z.div_add by lia. rewrite (Z.div_small cpu 256) by lia.
    replace (0 + (upper * 256 + cluster)) with (cluster + upper * 256) by ring.
    rewrite Z.mod_add by lia. apply Z.mod_small. lia.
Qed.

(** ** Standby, suspend and the console, system off *)

(** X12: while the core waits in standby the IRQ bit of SCR_EL3 is set.
    At the core level, if no wake-up ever comes, the handler is left waiting
    in wfi with SCR_EL3 holding its former value or-ed with SCR_IRQ_BIT, so
    every bit of SCR_IRQ_BIT is set there; nothing has been restored yet. *)
Theorem standby_waits_with_irq_bit_set (power_state : Z) (m : machine) :
  u32 (pstate_afflvl E power_state) = u32 (MPIDR_AFFLVL0 D) ->
  let armed := {| scr_el3 := Z.lor (scr_el3 m) (u64 (SCR_IRQ_BIT D)) |} in
  wfi_wake E armed = None ->
  sunxi_affinst_standby D E power_state m
  = mkResult Waiting armed
      [psci_get_pstate_afflvl_ev power_state; read_scr_el3_ev;
       write_scr_el3_ev (scr_el3 armed); isb_ev; dsb_ev; wfi_ev] /\
  Z.land (scr_el3 armed) (u64 (SCR_IRQ_BIT D)) = u64 (SCR_IRQ_BIT D).
Proof.
  intros Hlvl armed Hwake. subst armed. split.
  - unfold sunxi_affinst_standby, psci_get_pstate_afflvl, read_scr_el3,
      write_scr_el3, wfi, bind, call, ret.
    cbn [res hw_after trace app].
    apply Z.eqb_eq in Hlvl. rewrite Hlvl. cbn [negb res hw_after trace app].
    rewrite Hwake. reflexivity.
  - cbn [scr_el3]. apply Z.bits_inj'. intros n Hn.
    rewrite Z.land_spec, Z.lor_spec.
    destruct (Z.testbit (scr_el3 m) n),
             (Z.testbit (u64 (SCR_IRQ_BIT D)) n); reflexivity.
Qed.

(** X13: at the suspend level the console is shut down by whichever core
    suspends, but set up again only by core 0.  When the gate answers 0 and
    the level is the reported suspend level, the suspend handler calls
    console_exit for every MPIDR, while the suspend finisher calls
    console_init exactly for the MPIDRs whose low byte is 0. *)
Theorem console_exit_any_core_init_core0
    (mpidr sec_entrypoint ns_entrypoint afflvl state : Z) (m : machine) :
  res (gate afflvl state m) = Returned 0 ->
  afflvl = suspend_lvl ->
  In console_exit_ev
     (trace (sunxi_affinst_suspend D E mpidr sec_entrypoint ns_entrypoint
               afflvl state m)) /\
  (In (console_init_ev (SUNXI_UART0_BASE D) (UART0_CLK_IN_HZ D)
         (UART0_BAUDRATE D))
      (trace (sunxi_affinst_suspend_finish D E mpidr afflvl state m))
   <-> Z.land mpidr 0xff = 0).
Proof.
  intros Hg Hlvl. split.
  - rewrite suspend_run, Hg, zero_is_not_DEFER. cbn [trace].
    apply Z.eqb_eq in Hlvl. rewrite Hlvl.
    apply in_or_app. right. cbn [app In]. auto.
  - rewrite suspend_finish_run. cbv zeta. cbn [trace].
    rewrite on_finish_run, Hg, zero_is_not_DEFER. cbn [trace].
    destruct (gate_act_now_inv D E _ _ _ Hg) as [_ ->]. cbn [trace].
    apply Z.eqb_eq in Hlvl. rewrite Hlvl. cbn [andb].
    destruct (Z.eqb_spec (Z.land mpidr 0xff) 0) as [Hz|Hnz]; cbn [app In].
    + split; auto.
    + split; [|contradiction].
      intuition discriminate.
Qed.

(** X14: system off asks for the CPU voltage to be cut with level -1,
    reports the status it got back through ERROR, and then executes wfi.  It
    stays there if the core is never woken and panics otherwise, so it never
    returns; and it writes no memory-mapped register. *)
Theorem system_off_reports_then_never_returns (m : machine) :
  let r := sunxi_system_off E m in
  let start :=
    [sunxi_power_set_cpu_voltage_ev (-1);
     ERROR_ev "PSCI system shutdown: %d: still alive ...\n"
       [cpu_voltage_status E];
     wfi_ev] in
  (forall v, res r <> Returned v) /\
  (wfi_wake E m = None -> res r = Waiting /\ trace r = start) /\
  (wfi_wake E m <> None -> res r = Panicked /\ trace r = start ++ [panic_ev]) /\
  mmio_writes (trace r) = [].
Proof.
  intros r start. subst r start.
  unfold sunxi_system_off, sunxi_power_set_cpu_voltage, wfi, panic, bind,
    call, ret.
  cbn [res hw_after trace app].
  destruct (wfi_wake E m) as [m'|]; cbn [res hw_after trace app].
  - split; [discriminate|]. split; [discriminate|].
    split; [auto|reflexivity].
  - split; [discriminate|]. split; [auto|].
    split; [intros H; contradiction|reflexivity].
Qed.

End MoreProperties.

(** * The further properties on the upstream platform *)

Lemma gate_act_now_only_at_boundary_witness :
  res (sunxi_do_plat_actions upstream_def (env_of 1 2 wake_plain) 1 1 m0)
  = Returned 0 /\
  1 = u32 (PSCI_STATE_OFF upstream_def) /\
  1 = u32 (max_phys_off_afflvl_report (env_of 1 2 wake_plain)).
Proof.
  split; [reflexivity|].
  pose proof (gate_act_now_only_at_boundary upstream_def
                (env_of 1 2 wake_plain) 1 1 m0 eq_refl) as W.
  destruct W as [[Hst [Hlvl _]] _]. split; [exact Hst | exact Hlvl].
Defined.

Lemma on_finish_sets_up_core_on_act_now_witness :
  res (sunxi_do_plat_actions upstream_def (env_of 0 (-1) wake_plain) 0 1 m0)
  = Returned 0 /\
  sunxi_affinst_on_finish upstream_def (env_of 0 (-1) wake_plain) 0x102 0 1 m0
  = mkResult (Returned 0) m0
      [psci_get_max_phys_off_afflvl_ev; psci_get_suspend_afflvl_ev;
       platform_smp_init_ev; arm_gic_cpuif_setup_ev;
       arm_gic_pcpu_distif_setup_ev].
Proof.
  split; [reflexivity|].
  exact (proj1 (on_finish_sets_up_core_on_act_now upstream_def
                  (env_of 0 (-1) wake_plain) 0x102 0 1 m0) eq_refl).
Defined.

Lemma off_powers_down_on_act_now_witness :
  res (sunxi_do_plat_actions upstream_def (env_of 0 (-1) wake_plain) 0 1 m0)
  = Returned 0 /\
  sunxi_affinst_off upstream_def (env_of 0 (-1) wake_plain) 0x102 0 1 m0
  = mkResult (Returned 0) m0
      [psci_get_max_phys_off_afflvl_ev; psci_get_suspend_afflvl_ev;
       arm_gic_cpuif_deactivate_ev; sun50i_cpu_power_down_ev 1 2].
Proof.
  split; [reflexivity|].
  exact (off_powers_down_on_act_now upstream_def
           (env_of 0 (-1) wake_plain) 0x102 0 1 m0 eq_refl).
Defined.

Lemma gate_assertion_stops_handlers_witness :
  res (sunxi_do_plat_actions upstream_def (env_of (-1) (-1) wake_plain) 0 1 m0)
  = AssertFailed /\
  sunxi_affinst_off upstream_def (env_of (-1) (-1) wake_plain) 0x102 0 1 m0
  = mkResult AssertFailed m0 [psci_get_max_phys_off_afflvl_ev].
Proof.
  split; [reflexivity|].
  exact (proj1 (gate_assertion_stops_handlers upstream_def
                  (env_of (-1) (-1) wake_plain) 0x102 0 0 0 1 m0 eq_refl)).
Defined.

Lemma suspend_is_off_plus_console_exit_witness :
  res (sunxi_do_plat_actions upstream_def (env_of 1 1 wake_plain) 1 1 m0)
  = Returned 0 /\
  1 = u32 (suspend_afflvl_report (env_of 1 1 wake_plain)) /\
  hw_actions
    (trace (sunxi_affinst_suspend upstream_def (env_of 1 1 wake_plain)
              0x102 0x40000000 0x80000 1 1 m0))
  = console_exit_ev
    :: hw_actions
         (trace (sunxi_affinst_off upstream_def (env_of 1 1 wake_plain)
                   0x102 1 1 m0)).
Proof.
  split; [reflexivity|]. split; [reflexivity|].
  pose proof (suspend_is_off_plus_console_exit upstream_def
                (env_of 1 1 wake_plain) 0x102 0x40000000 0x80000 1 1 m0) as W.
  cbv zeta in W. destruct W as [_ [_ [Hact _]]].
  exact (Hact eq_refl eq_refl).
Defined.

Lemma handlers_return_success_only_witness :
  res (sunxi_affinst_standby upstream_def (env_of 0 0 wake_plain)
         0x01000000 m0) = Returned (-2) /\
  (-2 = PSCI_E_SUCCESS upstream_def \/
   -2 = PSCI_E_INVALID_PARAMS upstream_def).
Proof.
  split; [reflexivity|].
  pose proof (handlers_return_success_only upstream_def
                (env_of 0 0 wake_plain) 0 0 0 0 0 0x01000000 (-2) m0) as W.
  exact (proj2 (proj2 (proj2 (proj2 (proj2 W)))) eq_refl).
Defined.

Lemma decoded_indices_are_bytes_witness :
  MPIDR_AFFLVL_MASK upstream_def = 0xff /\
  0 <= cpu_nr upstream_def 0xffffffffffffffff < 256 /\
  0 <= cluster_nr upstream_def 0xffffffffffffffff < 256.
Proof.
  split; [reflexivity|].
  exact (decoded_indices_are_bytes upstream_def 0xffffffffffffffff eq_refl).
Defined.

Lemma decode_of_composed_mpidr_witness :
  MPIDR_AFF0_SHIFT upstream_def = 0 /\
  MPIDR_AFF1_SHIFT upstream_def = 8 /\
  MPIDR_AFFLVL_MASK upstream_def = 0xff /\
  0 <= 2 < 256 /\ 0 <= 1 < 256 /\
  cpu_nr upstream_def (0x80 * 2 ^ 16 + 1 * 2 ^ 8 + 2) = 2 /\
  cluster_nr upstream_def (0x80 * 2 ^ 16 + 1 * 2 ^ 8 + 2) = 1.
Proof.
  assert (Hcpu : 0 <= 2 < 256) by lia.
  assert (Hcl : 0 <= 1 < 256) by lia.
  do 3 (split; [reflexivity|]). split; [exact Hcpu|]. split; [exact Hcl|].
  exact (decode_of_composed_mpidr upstream_def 0x80 1 2
           eq_refl eq_refl eq_refl Hcpu Hcl).
Defined.

Lemma standby_waits_with_irq_bit_set_witness :
  u32 (upstream_pstate_afflvl 0) = u32 (MPIDR_AFFLVL0 upstream_def) /\
  wake_never {| scr_el3 := Z.lor 0x30 (u64 (SCR_IRQ_BIT upstream_def)) |}
  = None /\
  res (sunxi_affinst_standby upstream_def (env_of 0 0 wake_never) 0 m0)
  = Waiting /\
  scr_el3 (hw_after (sunxi_affinst_standby upstream_def
                       (env_of 0 0 wake_never) 0 m0)) = 0x32.
Proof.
  split; [reflexivity|]. split; [reflexivity|].
  pose proof (standby_waits_with_irq_bit_set upstream_def
                (env_of 0 0 wake_never) 0 m0 eq_refl) as W.
  cbv zeta in W. destruct (W eq_refl) as [Hrun _].
  rewrite Hrun. split; reflexivity.
Defined.

(** Core 2 of cluster 1 suspends the cluster: the console goes down and the
    same core's finisher does not bring it back. *)
Lemma console_exit_any_core_init_core0_witness :
  res (sunxi_do_plat_actions upstream_def (env_of 1 1 wake_plain) 1 1 m0)
  = Returned 0 /\
  1 = u32 (suspend_afflvl_report (env_of 1 1 wake_plain)) /\
  In console_exit_ev
     (trace (sunxi_affinst_suspend upstream_def (env_of 1 1 wake_plain)
               0x102 0x40000000 0x80000 1 1 m0)) /\
  ~ In (console_init_ev (SUNXI_UART0_BASE upstream_def)
          (UART0_CLK_IN_HZ upstream_def) (UART0_BAUDRATE upstream_def))
       (trace (sunxi_affinst_suspend_finish upstream_def
                 (env_of 1 1 wake_plain) 0x102 1 1 m0)).
Proof.
  split; [reflexivity|]. split; [reflexivity|].
  pose proof (console_exit_any_core_init_core0 upstream_def
                (env_of 1 1 wake_plain) 0x102 0x40000000 0x80000 1 1 m0
                eq_refl eq_refl) as [Hexit Hinit].
  split; [exact Hexit|].
  intros Hin. apply Hinit in Hin. discriminate Hin.
Defined.

Lemma system_off_reports_then_never_returns_witness :
  wfi_wake (env_of 0 0 wake_never) m0 = None /\
  res (sunxi_system_off (env_of 0 0 wake_never) m0) = Waiting.
Proof.
  split; [reflexivity|].
  pose proof (system_off_reports_then_never_returns
                (env_of 0 0 wake_never) m0) as W.
  cbv zeta in W. exact (proj1 (proj1 (proj2 W) eq_refl)).
Defined.
